(** * DatabaseService over DatabaseInterface

    A shallow embedding of [include/database_interface.h] and
    [src/database.cpp]: the abstract storage interface, the service that
    gates every data operation behind [initialized_] and the backend's
    [isConnected()], and the properties of that gate.

    Conventions.
    - A C++ [int] is a [Z].  The service never computes with the integers
      it forwards (ids, ages, counts), so no wrap-around can arise.
    - [std::string] is [string]; [operator+] on strings is [++].
    - A virtual method of the backend is a function from the state of the
      backend object to its return value and the next state of the object.
      The [const] methods are modelled the same way: a test double such as
      [MockDatabase] answers a [const] call from a queue of scripted
      returns, so even [isConnected()] may answer differently each time.
    - Every call the service makes on the backend is recorded, in program
      order, together with the value the backend returned.
    - Dereferencing a null [shared_ptr] is undefined behaviour; the
      embedding makes it the distinguished outcome [NullDereference].

    The integer and string functions of the calculator
    ([include/calculator.h], [src/calculator.cpp]) are embedded in
    [Module Calculator]. *)

From Stdlib Require Import ZArith String Ascii List Bool Lia DecimalString DecimalPos DecimalZ.
Import ListNotations.

Local Open Scope string_scope.
Local Open Scope Z_scope.

(** ** Library functions used by the service *)

(** [std::to_string(int)]: the decimal digits of the value, with a leading
    minus sign when it is negative. *)
Definition to_string (v : Z) : string :=
  NilZero.string_of_int (Z.to_int v).

(** [std::string::empty()]. *)
Definition empty (s : string) : bool :=
  match s with
  | EmptyString => true
  | String _ _ => false
  end.

(** ** The storage interface *)

(** [class DatabaseInterface]: one field per pure virtual method, in the
    order of the header.  [executeQuery] takes the current contents of its
    reference parameter [results] and returns the new contents. *)
Class DatabaseInterface (B : Type) : Type := {
  connect : string -> B -> bool * B;
  disconnect : B -> B;
  isConnected : B -> bool * B;
  insertUser : string -> Z -> B -> bool * B;
  getUserName : Z -> B -> string * B;
  getUserAge : Z -> B -> Z * B;
  updateUser : Z -> string -> Z -> B -> bool * B;
  deleteUser : Z -> B -> bool * B;
  getAllUserNames : B -> list string * B;
  getUserCount : B -> Z * B;
  executeQuery : string -> list string -> B -> (bool * list string) * B;
  getLastError : B -> string * B;
  clearError : B -> B
}.

(** A call made through [database_->], with its arguments and the value the
    backend returned.  These are the seven methods [database.cpp] calls. *)
Inductive call : Type :=
| CallConnect (connectionString : string) (returned : bool)
| CallIsConnected (returned : bool)
| CallInsertUser (name : string) (age : Z) (returned : bool)
| CallGetUserName (userId : Z) (returned : string)
| CallGetUserAge (userId : Z) (returned : Z)
| CallDeleteUser (userId : Z) (returned : bool)
| CallGetUserCount (returned : Z).

Definition is_getUserAge (c : call) : bool :=
  match c with
  | CallGetUserAge _ _ => true
  | _ => false
  end.

(** ** The service object *)

(** [std::shared_ptr<DatabaseInterface>]: null, or a reference to the
    backend object.  The object itself lives outside the service (it is
    shared with the caller), see [machine]. *)
Variant shared_ptr : Type :=
| nullptr
| backend_ref.

(** The data members of [class DatabaseService]. *)
Record DatabaseService : Type := {
  database_ : shared_ptr;
  initialized_ : bool
}.

(** [DatabaseService::DatabaseService(db)]: binds the pointer;
    [initialized_] takes its default member initializer [false]. *)
Definition DatabaseService_new (db : shared_ptr) : DatabaseService :=
  {| database_ := db; initialized_ := false |}.

(** The object invariant of the service: [initialized_] is only ever set
    after a call through a non-null [database_]. *)
Definition well_formed (s : DatabaseService) : Prop :=
  initialized_ s = true -> database_ s = backend_ref.

Section Service.

Context {B : Type} `{DatabaseInterface B}.

(** The service object [this] and the backend object it may point to. *)
Record machine : Type := {
  this : DatabaseService;
  backend : B
}.

(** What running a member function does: it returns a value, leaves a
    machine and has made some calls on the backend; or it dereferenced a
    null [database_]. *)
Inductive outcome (A : Type) : Type :=
| Returns (a : A) (m : machine) (calls : list call)
| NullDereference.
Arguments Returns {A} a m calls.
Arguments NullDereference {A}.

Definition M (A : Type) : Type := machine -> outcome A.

Definition ret {A : Type} (a : A) : M A :=
  fun m => Returns a m [].

Definition bind {A C : Type} (c : M A) (k : A -> M C) : M C :=
  fun m =>
    match c m with
    | Returns a m1 calls1 =>
        match k a m1 with
        | Returns b m2 calls2 => Returns b m2 (calls1 ++ calls2)
        | NullDereference => NullDereference
        end
    | NullDereference => NullDereference
    end.

(** Reading a data member of [this]. *)
Definition member {A : Type} (field : DatabaseService -> A) : M A :=
  fun m => Returns (field (this m)) m [].

(** [initialized_ = v;] *)
Definition set_initialized_ (v : bool) : M unit :=
  fun m =>
    Returns tt
      {| this := {| database_ := database_ (this m); initialized_ := v |};
         backend := backend m |}
      [].

(** [database_->method(args)]: undefined on a null pointer; otherwise the
    backend object answers and moves to its next state, and the call is
    recorded with its answer. *)
Definition arrow {R : Type} (method : B -> R * B) (record : R -> call) : M R :=
  fun m =>
    match database_ (this m) with
    | nullptr => NullDereference
    | backend_ref =>
        let (r, b') := method (backend m) in
        Returns r {| this := this m; backend := b' |} [record r]
    end.

End Service.

Arguments machine B : clear implicits.
Arguments Returns {B A} a m calls.
Arguments NullDereference {B A}.

Declare Scope service_scope.
Delimit Scope service_scope with service.
Notation "x <- c ;; k" := (bind c (fun x => k))
  (at level 61, c at next level, right associativity) : service_scope.
Notation "c ;;; k" := (bind c (fun _ => k))
  (at level 61, right associativity) : service_scope.
Local Open Scope service_scope.

Section Operations.

Context {B : Type} `{DatabaseInterface B}.

(** [!database_] *)
Definition is_null (p : shared_ptr) : bool :=
  match p with
  | nullptr => true
  | backend_ref => false
  end.

(** The condition of every gated operation,
    [!initialized_ || !database_->isConnected()].  [||] evaluates its
    right operand only when the left one is false. *)
Definition not_ready : M bool :=
  i <- member initialized_ ;;
  if negb i then ret true
  else
    c <- arrow isConnected CallIsConnected ;;
    ret (negb c).

Definition initializeConnection (connectionString : string) : M bool :=
  db <- member database_ ;;
  if is_null db then ret false
  else
    connected <- arrow (connect connectionString) (CallConnect connectionString) ;;
    (if connected : bool then set_initialized_ true else ret tt) ;;;
    ret connected.

Definition createUser (name : string) (age : Z) : M bool :=
  stop <- not_ready ;;
  if stop : bool then ret false
  else arrow (insertUser name age) (CallInsertUser name age).

Definition getUserInfo (userId : Z) : M string :=
  stop <- not_ready ;;
  if stop : bool then ret ""
  else
    name <- arrow (getUserName userId) (CallGetUserName userId) ;;
    age <- arrow (getUserAge userId) (CallGetUserAge userId) ;;
    if empty name then ret ""
    else ret ("Name: " ++ name ++ ", Age: " ++ to_string age).

Definition removeUser (userId : Z) : M bool :=
  stop <- not_ready ;;
  if stop : bool then ret false
  else arrow (deleteUser userId) (CallDeleteUser userId).

Definition getTotalUsers : M Z :=
  stop <- not_ready ;;
  if stop : bool then ret (-1)
  else arrow getUserCount CallGetUserCount.

(** The shape [createUser], [removeUser] and [getTotalUsers] have in
    common: behind a closed gate the sentinel [none], behind an open one a
    single call whose answer is returned as it is. *)
Definition gated {R : Type} (none : R) (method : B -> R * B) (record : R -> call) : M R :=
  stop <- not_ready ;;
  if stop : bool then ret none else arrow method record.

End Operations.

(** ** Sequences of operations *)

(** The public member functions of [DatabaseService], as a caller may
    invoke them one after another on the same object. *)
Inductive operation : Type :=
| InitializeConnection (connectionString : string)
| CreateUser (name : string) (age : Z)
| GetUserInfo (userId : Z)
| RemoveUser (userId : Z)
| GetTotalUsers.

(** What a member function returns: [bool], [std::string] or [int]. *)
Inductive value : Type :=
| VBool (b : bool)
| VString (s : string)
| VInt (z : Z).

(** The value by which each operation reports that it did nothing. *)
Definition sentinel (o : operation) : value :=
  match o with
  | InitializeConnection _ => VBool false
  | CreateUser _ _ => VBool false
  | GetUserInfo _ => VString ""
  | RemoveUser _ => VBool false
  | GetTotalUsers => VInt (-1)
  end.

Definition is_initializeConnection (o : operation) : bool :=
  match o with
  | InitializeConnection _ => true
  | _ => false
  end.

Section Sequences.

Context {B : Type} `{DatabaseInterface B}.

Definition perform (o : operation) : M value :=
  match o with
  | InitializeConnection cs => r <- initializeConnection cs ;; ret (VBool r)
  | CreateUser name age => r <- createUser name age ;; ret (VBool r)
  | GetUserInfo userId => r <- getUserInfo userId ;; ret (VString r)
  | RemoveUser userId => r <- removeUser userId ;; ret (VBool r)
  | GetTotalUsers => r <- getTotalUsers ;; ret (VInt r)
  end.

Fixpoint perform_all (os : list operation) : M (list value) :=
  match os with
  | [] => ret []
  | o :: rest =>
      v <- perform o ;;
      vs <- perform_all rest ;;
      ret (v :: vs)
  end.

End Sequences.

(** ** A scripted test double *)

(** A backend in the manner of [MockDatabase] (tests/mock_test.cpp): each
    method answers from a script, first the values queued with [WillOnce],
    in order, and from then on the value given to [WillRepeatedly]. *)
Module Mock.

Definition script (A : Type) : Type := (list A * A)%type.

Definition answer {A : Type} (s : script A) : A * script A :=
  match fst s with
  | [] => (snd s, s)
  | a :: queue => (a, (queue, snd s))
  end.

Record MockDatabase : Type := {
  on_connect : script bool;
  on_isConnected : script bool;
  on_insertUser : script bool;
  on_getUserName : script string;
  on_getUserAge : script Z;
  on_deleteUser : script bool;
  on_getUserCount : script Z
}.

Definition mock_connect (_ : string) (d : MockDatabase) : bool * MockDatabase :=
  let (r, s) := answer (on_connect d) in
  (r, {| on_connect := s; on_isConnected := on_isConnected d;
         on_insertUser := on_insertUser d; on_getUserName := on_getUserName d;
         on_getUserAge := on_getUserAge d; on_deleteUser := on_deleteUser d;
         on_getUserCount := on_getUserCount d |}).

Definition mock_isConnected (d : MockDatabase) : bool * MockDatabase :=
  let (r, s) := answer (on_isConnected d) in
  (r, {| on_connect := on_connect d; on_isConnected := s;
         on_insertUser := on_insertUser d; on_getUserName := on_getUserName d;
         on_getUserAge := on_getUserAge d; on_deleteUser := on_deleteUser d;
         on_getUserCount := on_getUserCount d |}).

Definition mock_insertUser (_ : string) (_ : Z) (d : MockDatabase) : bool * MockDatabase :=
  let (r, s) := answer (on_insertUser d) in
  (r, {| on_connect := on_connect d; on_isConnected := on_isConnected d;
         on_insertUser := s; on_getUserName := on_getUserName d;
         on_getUserAge := on_getUserAge d; on_deleteUser := on_deleteUser d;
         on_getUserCount := on_getUserCount d |}).

Definition mock_getUserName (_ : Z) (d : MockDatabase) : string * MockDatabase :=
  let (r, s) := answer (on_getUserName d) in
  (r, {| on_connect := on_connect d; on_isConnected := on_isConnected d;
         on_insertUser := on_insertUser d; on_getUserName := s;
         on_getUserAge := on_getUserAge d; on_deleteUser := on_deleteUser d;
         on_getUserCount := on_getUserCount d |}).

Definition mock_getUserAge (_ : Z) (d : MockDatabase) : Z * MockDatabase :=
  let (r, s) := answer (on_getUserAge d) in
  (r, {| on_connect := on_connect d; on_isConnected := on_isConnected d;
         on_insertUser := on_insertUser d; on_getUserName := on_getUserName d;
         on_getUserAge := s; on_deleteUser := on_deleteUser d;
         on_getUserCount := on_getUserCount d |}).

Definition mock_deleteUser (_ : Z) (d : MockDatabase) : bool * MockDatabase :=
  let (r, s) := answer (on_deleteUser d) in
  (r, {| on_connect := on_connect d; on_isConnected := on_isConnected d;
         on_insertUser := on_insertUser d; on_getUserName := on_getUserName d;
         on_getUserAge := on_getUserAge d; on_deleteUser := s;
         on_getUserCount := on_getUserCount d |}).

Definition mock_getUserCount (d : MockDatabase) : Z * MockDatabase :=
  let (r, s) := answer (on_getUserCount d) in
  (r, {| on_connect := on_connect d; on_isConnected := on_isConnected d;
         on_insertUser := on_insertUser d; on_getUserName := on_getUserName d;
         on_getUserAge := on_getUserAge d; on_deleteUser := on_deleteUser d;
         on_getUserCount := s |}).

(** The methods the service never calls answer with the default value
    of their return type. *)
#[global] Instance MockDatabase_interface : DatabaseInterface MockDatabase := {|
  connect := mock_connect;
  disconnect := fun d => d;
  isConnected := mock_isConnected;
  insertUser := mock_insertUser;
  getUserName := mock_getUserName;
  getUserAge := mock_getUserAge;
  updateUser := fun _ _ _ d => (false, d);
  deleteUser := mock_deleteUser;
  getAllUserNames := fun d => ([], d);
  getUserCount := mock_getUserCount;
  executeQuery := fun _ results d => ((false, results), d);
  getLastError := fun d => ("", d);
  clearError := fun d => d
|}.

(** [connect] and [isConnected] always succeed; user 1 is first
    ("Alice", 25), then ("Unknown", 26), then ("Unknown", 0) for ever:
    the expectations of the test [MultipleReturnValues]. *)
Definition alice : MockDatabase :=
  {| on_connect := ([true], false); on_isConnected := ([], true);
     on_insertUser := ([], true); on_getUserName := (["Alice"], "Unknown");
     on_getUserAge := ([25; 26], 0); on_deleteUser := ([], true);
     on_getUserCount := ([], 1) |}.

(** The state of [alice] once [connect] has consumed its single scripted
    answer. *)
Definition alice_connected : MockDatabase :=
  snd (connect "test" alice).

(** The state of [alice] once the name of user 1 has been asked for, and
    then once the age has been asked for as well. *)
Definition alice_named : MockDatabase :=
  snd (getUserName 1 alice).

Definition alice_aged : MockDatabase :=
  snd (getUserAge 1 alice_named).

(** Connected, and user 1 is ("Alice", 25) at every call. *)
Definition steady : MockDatabase :=
  {| on_connect := ([], true); on_isConnected := ([], true);
     on_insertUser := ([], true); on_getUserName := ([], "Alice");
     on_getUserAge := ([], 25); on_deleteUser := ([], true);
     on_getUserCount := ([], 1) |}.

(** Connected, and no user is known: every name is empty, every age is
    the stand-in 99. *)
Definition nobody : MockDatabase :=
  {| on_connect := ([], true); on_isConnected := ([], true);
     on_insertUser := ([], true); on_getUserName := ([], "");
     on_getUserAge := ([], 99); on_deleteUser := ([], false);
     on_getUserCount := ([], 0) |}.

(** [connect] fails. *)
Definition unreachable : MockDatabase :=
  {| on_connect := ([], false); on_isConnected := ([], false);
     on_insertUser := ([], true); on_getUserName := ([], "Alice");
     on_getUserAge := ([], 25); on_deleteUser := ([], true);
     on_getUserCount := ([], 1) |}.

(** A fresh service bound to the mock [d]. *)
Definition fixture (d : MockDatabase) : machine MockDatabase :=
  {| this := DatabaseService_new backend_ref; backend := d |}.

(** A service on which [initializeConnection] has succeeded. *)
Definition ready (d : MockDatabase) : machine MockDatabase :=
  {| this := {| database_ := backend_ref; initialized_ := true |}; backend := d |}.

(** A service constructed with a null pointer, next to the mock [d]. *)
Definition unbound (d : MockDatabase) : machine MockDatabase :=
  {| this := DatabaseService_new nullptr; backend := d |}.

End Mock.

(** ** The repository's tests, replayed on the embedding *)

Definition returned {B A : Type} (o : @outcome B A) : option A :=
  match o with
  | Returns a _ _ => Some a
  | NullDereference => None
  end.

Definition calls_made {B A : Type} (o : @outcome B A) : list call :=
  match o with
  | Returns _ _ calls => calls
  | NullDereference => []
  end.

(** ** Disciplines on the record of calls *)

(** No member function other than [initializeConnection] in the
    sequence. *)
Definition only_gated (os : list operation) : bool :=
  forallb (fun o => negb (is_initializeConnection o)) os.

(** A record in which every data call stands directly behind an
    [isConnected()] that answered true: the record is a sequence of
    [connect] calls, lone [isConnected] calls that answered false, and
    [isConnected] calls that answered true followed by the one data call
    of [createUser], [removeUser] or [getTotalUsers] or by the two of
    [getUserInfo], name then age of the same user. *)
Fixpoint well_gated (calls : list call) : bool :=
  match calls with
  | [] => true
  | CallConnect _ _ :: rest => well_gated rest
  | CallIsConnected false :: rest => well_gated rest
  | CallIsConnected true :: CallInsertUser _ _ _ :: rest => well_gated rest
  | CallIsConnected true :: CallDeleteUser _ _ :: rest => well_gated rest
  | CallIsConnected true :: CallGetUserCount _ :: rest => well_gated rest
  | CallIsConnected true :: CallGetUserName userId _
      :: CallGetUserAge userId' _ :: rest =>
      (userId =? userId') && well_gated rest
  | _ => false
  end.

(** A record that is empty or consists of failed [connect] calls up to
    its first successful one: nothing else is asked of the backend before
    a [connect] has answered true. *)
Fixpoint connect_first (calls : list call) : bool :=
  match calls with
  | [] => true
  | CallConnect _ true :: _ => true
  | CallConnect _ false :: rest => connect_first rest
  | _ => false
  end.

(** ** The calculator *)

(** A shallow embedding of [include/calculator.h] and
    [src/calculator.cpp], for the member functions on integers and
    strings.  [divide], [squareRoot], [setValue] and [getValue] compute
    with or store a [double] and are left out.

    [int] is taken to be 32 bits wide and [long long] 64 bits.  Signed
    overflow is undefined behaviour; the embedding makes it the outcome
    [Undefined].  Arguments of type [int] are integers in the range of
    [int]. *)
Module Calculator.

Inductive result (A : Type) : Type :=
| Value (a : A)
| Throws (what : string)
| Undefined.
Arguments Value {A} a.
Arguments Throws {A} what.
Arguments Undefined {A}.

Definition and_then {A C : Type} (r : result A) (k : A -> result C) : result C :=
  match r with
  | Value a => k a
  | Throws what => Throws what
  | Undefined => Undefined
  end.

Definition INT_MIN : Z := - 2 ^ 31.
Definition INT_MAX : Z := 2 ^ 31 - 1.
Definition LLONG_MIN : Z := - 2 ^ 63.
Definition LLONG_MAX : Z := 2 ^ 63 - 1.

Definition in_int (z : Z) : bool := (INT_MIN <=? z) && (z <=? INT_MAX).
Definition in_long_long (z : Z) : bool := (LLONG_MIN <=? z) && (z <=? LLONG_MAX).

(** The result of an arithmetic expression of type [int], given its
    mathematical value. *)
Definition as_int (z : Z) : result Z :=
  if in_int z then Value z else Undefined.

(** The same for [long long]. *)
Definition as_long_long (z : Z) : result Z :=
  if in_long_long z then Value z else Undefined.

Definition add (a b : Z) : result Z := as_int (a + b).

Definition subtract (a b : Z) : result Z := as_int (a - b).

Definition multiply (a b : Z) : result Z := as_int (a * b).

Definition isPositive (number : Z) : bool := 0 <? number.

(** [number % 2 == 0]; [%] truncates towards zero, as [Z.rem] does. *)
Definition isEven (number : Z) : bool := Z.rem number 2 =? 0.

Definition isEmpty (str : string) : bool := empty str.

Definition concatenate (str1 str2 : string) : string := str1 ++ str2.

(** [std::transform(first, last, first, op)] on a string: [op] applied to
    each character in place. *)
Fixpoint transform (op : ascii -> ascii) (s : string) : string :=
  match s with
  | EmptyString => EmptyString
  | String c rest => String (op c) (transform op rest)
  end.

(** [::toupper] in the "C" locale, the locale of a program that never
    calls [setlocale]: the letters a to z map to A to Z, every other
    character to itself. *)
Definition toupper (c : ascii) : ascii :=
  let n := N_of_ascii c in
  if (97 <=? n)%N && (n <=? 122)%N then ascii_of_N (n - 32) else c.

(** Whether a character is one of the letters a to z. *)
Definition is_lower (c : ascii) : bool :=
  ((97 <=? N_of_ascii c) && (N_of_ascii c <=? 122))%N.

Section Locale.

(** The character mapping [::toupper] of the locale in force. *)
Variable toupper_l : ascii -> ascii.

Definition toUpperCase_l (str : string) : string :=
  let result := str in
  transform toupper_l result.

End Locale.

Definition toUpperCase (str : string) : string := toUpperCase_l toupper str.

(** [static_cast<int>] of an unsigned value: the value itself when it
    fits, and otherwise the value modulo 2^32 in the range of [int]. *)
Definition static_cast_int (z : Z) : Z :=
  (z + 2 ^ 31) mod 2 ^ 32 - 2 ^ 31.

Definition getLength (str : string) : Z :=
  static_cast_int (Z.of_nat (String.length str)).

(** The loop [for (int i = 2; i <= n; ++i) result *= i;] entered with
    [remaining = n + 1 - i] values of [i] still to come, so that
    [i <= n] holds exactly when [remaining] is not zero. *)
Fixpoint factorial_loop (remaining : nat) (i result : Z) : Calculator.result Z :=
  match remaining with
  | O => Value result
  | S remaining' =>
      and_then (as_long_long (result * i)) (fun result' =>
      and_then (as_int (i + 1)) (fun i' =>
      factorial_loop remaining' i' result'))
  end.

Definition factorial (n : Z) : result Z :=
  if n <? 0 then Throws "Factorial is not defined for negative numbers"
  else if (n =? 0) || (n =? 1) then Value 1
  else factorial_loop (Z.to_nat (n + 1 - 2)) 2 1.

End Calculator.

(** The factorial of a natural number, as an integer. *)
Fixpoint factorial_of (n : nat) : Z :=
  match n with
  | O => 1
  | S k => Z.of_nat (S k) * factorial_of k
  end.

(** The advertised layout of an info string. *)
Definition info_string (name : string) (age : Z) : string :=
  "Name: " ++ name ++ ", Age: " ++ to_string age.

(** [MockDatabaseTest.MultipleReturnValues]. *)
Example test_MultipleReturnValues :
  returned (perform_all
              [InitializeConnection "test"; GetUserInfo 1; GetUserInfo 1; GetUserInfo 1]
              (Mock.fixture Mock.alice))
  = Some [VBool true; VString "Name: Alice, Age: 25";
          VString "Name: Unknown, Age: 26"; VString "Name: Unknown, Age: 0"].
Proof. reflexivity. Qed.

(** [MockDatabaseTest.OrderedExpectations]. *)
Example test_OrderedExpectations :
  let o := perform_all [InitializeConnection "test"; CreateUser "Alice" 25; GetTotalUsers]
             (Mock.fixture Mock.alice) in
  returned o = Some [VBool true; VBool true; VInt 1] /\
  calls_made o = [CallConnect "test" true; CallIsConnected true;
                  CallInsertUser "Alice" 25 true; CallIsConnected true;
                  CallGetUserCount 1].
Proof. split; reflexivity. Qed.

(** [MockBestPracticesTest.MethodsShouldNeverBeCalled]. *)
Example test_MethodsShouldNeverBeCalled :
  calls_made (initializeConnection "test" (Mock.fixture Mock.alice))
  = [CallConnect "test" true].
Proof. reflexivity. Qed.

(** The negative scenario: [connect] fails, so [createUser] returns false
    and [insertUser] is never called. *)
Example test_connect_fails :
  let o := perform_all [InitializeConnection "test"; CreateUser "Alice" 25]
             (Mock.fixture Mock.unreachable) in
  returned o = Some [VBool false; VBool false] /\
  calls_made o = [CallConnect "test" false].
Proof. split; reflexivity. Qed.

(** [getUserInfo] twice on a backend whose answers do not change. *)
Example test_getUserInfo_twice :
  returned (perform_all [GetUserInfo 1; GetUserInfo 1] (Mock.ready Mock.steady))
  = Some [VString "Name: Alice, Age: 25"; VString "Name: Alice, Age: 25"].
Proof. reflexivity. Qed.

(** [std::to_string] on a few values. *)
Example to_string_samples :
  to_string 25 = "25" /\ to_string 0 = "0" /\ to_string (-7) = "-7" /\
  to_string 2147483647 = "2147483647" /\ to_string (-2147483648) = "-2147483648".
Proof. repeat split; reflexivity. Qed.

(** ** The gate *)

(** Unfolds the plumbing of a member function down to the backend calls. *)
Ltac unfold_service :=
  unfold perform, initializeConnection, createUser, getUserInfo, removeUser,
    getTotalUsers, not_ready, bind, member, arrow, set_initialized_, ret.

(** Runs a member function on a machine whose fields are known. *)
Ltac run_service :=
  unfold_service; cbn [this backend database_ initialized_ negb is_null app];
  repeat match goal with
         | E : ?x = _ |- context [?x] => rewrite E;
             cbn [this backend database_ initialized_ negb is_null app fst snd]
         end.

Section Gate.

Context {B : Type} `{DatabaseInterface B}.

Lemma machine_eta (m : machine B) :
  {| this := this m; backend := backend m |} = m.
Proof. destruct m; reflexivity. Qed.

Lemma service_eta (s : DatabaseService) :
  {| database_ := database_ s; initialized_ := initialized_ s |} = s.
Proof. destruct s; reflexivity. Qed.

(** While [initialized_] is false the gate is closed without asking the
    backend anything. *)
Lemma not_ready_uninitialized (m : machine B) :
  initialized_ (this m) = false -> not_ready m = Returns true m [].
Proof. intros E. run_service. reflexivity. Qed.

(** Once [initialized_] is true the gate asks [isConnected()], once. *)
Lemma not_ready_initialized (m : machine B) :
  initialized_ (this m) = true ->
  database_ (this m) = backend_ref ->
  not_ready m
  = Returns (negb (fst (isConnected (backend m))))
      {| this := this m; backend := snd (isConnected (backend m)) |}
      [CallIsConnected (fst (isConnected (backend m)))].
Proof.
  intros Ei Ed. run_service.
  destruct (isConnected (backend m)) as [c b1]. reflexivity.
Qed.

Lemma createUser_gated name age :
  createUser name age = gated false (insertUser name age) (CallInsertUser name age).
Proof. reflexivity. Qed.

Lemma removeUser_gated userId :
  removeUser userId = gated false (deleteUser userId) (CallDeleteUser userId).
Proof. reflexivity. Qed.

Lemma getTotalUsers_gated :
  getTotalUsers = gated (-1) getUserCount CallGetUserCount.
Proof. reflexivity. Qed.

Lemma gated_uninitialized {R : Type} (none : R) method record (m : machine B) :
  initialized_ (this m) = false ->
  gated none method record m = Returns none m [].
Proof.
  intros E. unfold gated, bind. rewrite (not_ready_uninitialized m E).
  reflexivity.
Qed.

Lemma gated_connected {R : Type} (none : R) method record (m : machine B) b1 :
  initialized_ (this m) = true ->
  database_ (this m) = backend_ref ->
  isConnected (backend m) = (true, b1) ->
  gated none method record m
  = Returns (fst (method b1)) {| this := this m; backend := snd (method b1) |}
      [CallIsConnected true; record (fst (method b1))].
Proof.
  intros Ei Ed Ec. unfold gated, bind.
  rewrite (not_ready_initialized m Ei Ed), Ec. cbn [fst snd negb].
  unfold arrow. cbn [this backend]. rewrite Ed.
  destruct (method b1) as [r b2]. reflexivity.
Qed.

Lemma gated_disconnected {R : Type} (none : R) method record (m : machine B) b1 :
  initialized_ (this m) = true ->
  database_ (this m) = backend_ref ->
  isConnected (backend m) = (false, b1) ->
  gated none method record m
  = Returns none {| this := this m; backend := b1 |} [CallIsConnected false].
Proof.
  intros Ei Ed Ec. unfold gated, bind.
  rewrite (not_ready_initialized m Ei Ed), Ec. reflexivity.
Qed.

Lemma getUserInfo_uninitialized userId (m : machine B) :
  initialized_ (this m) = false -> getUserInfo userId m = Returns "" m [].
Proof.
  intros E. unfold getUserInfo, bind. rewrite (not_ready_uninitialized m E).
  reflexivity.
Qed.

Lemma getUserInfo_disconnected userId (m : machine B) b1 :
  initialized_ (this m) = true ->
  database_ (this m) = backend_ref ->
  isConnected (backend m) = (false, b1) ->
  getUserInfo userId m
  = Returns "" {| this := this m; backend := b1 |} [CallIsConnected false].
Proof.
  intros Ei Ed Ec. unfold getUserInfo, bind.
  rewrite (not_ready_initialized m Ei Ed), Ec. reflexivity.
Qed.

(** Past the gate, [getUserInfo] asks for the name and then for the age,
    whatever the name was, and only then looks at the name. *)
Lemma getUserInfo_connected userId (m : machine B) b1 :
  initialized_ (this m) = true ->
  database_ (this m) = backend_ref ->
  isConnected (backend m) = (true, b1) ->
  let name := fst (getUserName userId b1) in
  let b2 := snd (getUserName userId b1) in
  let age := fst (getUserAge userId b2) in
  let b3 := snd (getUserAge userId b2) in
  getUserInfo userId m
  = Returns
      (if empty name then "" else "Name: " ++ name ++ ", Age: " ++ to_string age)
      {| this := this m; backend := b3 |}
      [CallIsConnected true; CallGetUserName userId name; CallGetUserAge userId age].
Proof.
  intros Ei Ed Ec. cbv zeta. unfold getUserInfo, bind.
  rewrite (not_ready_initialized m Ei Ed), Ec. cbn [fst snd negb].
  unfold arrow. cbn [this backend]. rewrite Ed.
  destruct (getUserName userId b1) as [name b2]. cbn [this backend fst snd].
  rewrite Ed.
  destruct (getUserAge userId b2) as [age b3]. cbn [this backend fst snd].
  destruct (empty name); reflexivity.
Qed.

Lemma initializeConnection_null cs (m : machine B) :
  database_ (this m) = nullptr -> initializeConnection cs m = Returns false m [].
Proof. intros E. run_service. reflexivity. Qed.

Lemma initializeConnection_bound cs (m : machine B) :
  database_ (this m) = backend_ref ->
  let r := fst (connect cs (backend m)) in
  initializeConnection cs m
  = Returns r
      {| this := {| database_ := backend_ref;
                    initialized_ := r || initialized_ (this m) |};
         backend := snd (connect cs (backend m)) |}
      [CallConnect cs r].
Proof.
  intros E. cbv zeta. run_service.
  destruct (connect cs (backend m)) as [r b1]. cbn [fst snd].
  destruct r; cbn [orb this backend database_ initialized_ app].
  - rewrite E. reflexivity.
  - rewrite <- E, service_eta. reflexivity.
Qed.

End Gate.

(** ** [std::to_string] *)

(** The string [to_string v] is the decimal numeral of [v]: read back as
    a signed decimal numeral, it denotes [v]. *)
Lemma to_string_decimal (v : Z) :
  option_map Z.of_int (NilZero.int_of_string (to_string v)) = Some v.
Proof.
  unfold to_string. rewrite NilZero.isi.
  - cbn [option_map]. f_equal. apply DecimalZ.of_to.
  - destruct v as [|p|p]; cbn [Z.to_int]; try discriminate.
    intros E. injection E. apply DecimalPos.Unsigned.to_uint_nonnil.
  - destruct v as [|p|p]; cbn [Z.to_int]; try discriminate.
    intros E. injection E. apply DecimalPos.Unsigned.to_uint_nonnil.
Qed.

Lemma empty_false_iff (s : string) : empty s = false <-> s <> "".
Proof. destruct s; cbn [empty]; split; congruence. Qed.

(** ** The object invariant *)

Section Invariant.

Context {B : Type} `{DatabaseInterface B}.

Lemma well_formed_new (db : shared_ptr) : well_formed (DatabaseService_new db).
Proof. unfold well_formed. cbn. discriminate. Qed.

(** No member function assigns [database_]; the only assignment to
    [initialized_] is [initialized_ = true] after a successful
    [connect].  From a well-formed object every member function
    returns. *)
Lemma perform_step (o : operation) (m : machine B) :
  match perform o m with
  | Returns v m' calls =>
      database_ (this m') = database_ (this m) /\
      (initialized_ (this m') = initialized_ (this m) \/
       initialized_ (this m) = false /\ initialized_ (this m') = true /\
       is_initializeConnection o = true /\ v = VBool true /\
       database_ (this m) = backend_ref)
  | NullDereference =>
      initialized_ (this m) = true /\ database_ (this m) = nullptr
  end.
Proof.
  destruct m as [[db init] b].
  destruct o, db, init; unfold_service;
    cbn [this backend database_ initialized_ negb is_null app];
    repeat (match goal with
            | |- context [let (_, _) := ?c in _] => destruct c as [[] ?]
            | |- context [let (_, _) := ?c in _] => destruct c as [? ?]
            | |- context [if empty ?s then _ else _] => destruct (empty s)
            end;
            cbn [this backend database_ initialized_ negb is_null app]);
    cbn [this backend database_ initialized_ is_initializeConnection];
    auto 10.
Qed.

Lemma perform_well_formed (o : operation) (m : machine B) :
  well_formed (this m) ->
  exists v m' calls,
    perform o m = Returns v m' calls /\ well_formed (this m').
Proof.
  intros W. pose proof (perform_step o m) as S.
  destruct (perform o m) as [v m' calls|].
  - exists v, m', calls. split; [reflexivity|].
    destruct S as [Ed S]. unfold well_formed in *. rewrite Ed.
    destruct S as [Ei | (_ & _ & _ & _ & Eb)]; [rewrite Ei; exact W | auto].
  - destruct S as [Ei Ed]. apply W in Ei. congruence.
Qed.

Lemma perform_all_cons (o : operation) (os : list operation) (m : machine B) :
  perform_all (o :: os) m
  = match perform o m with
    | Returns v m1 calls1 =>
        match perform_all os m1 with
        | Returns vs m2 calls2 => Returns (v :: vs) m2 (calls1 ++ calls2)
        | NullDereference => NullDereference
        end
    | NullDereference => NullDereference
    end.
Proof.
  cbn [perform_all]. unfold bind at 1.
  destruct (perform o m) as [v m1 calls1|]; [|reflexivity].
  unfold bind, ret.
  destruct (perform_all os m1) as [vs m2 calls2|]; [|reflexivity].
  rewrite app_nil_r. reflexivity.
Qed.

(** Every state a caller can reach from the constructor is well formed,
    and no sequence of calls dereferences a null [database_]. *)
Lemma perform_all_well_formed (os : list operation) (m : machine B) :
  well_formed (this m) ->
  exists vs m' calls,
    perform_all os m = Returns vs m' calls /\ well_formed (this m').
Proof.
  revert m. induction os as [|o os IH]; intros m W.
  - exists [], m, []. split; [reflexivity | exact W].
  - rewrite perform_all_cons.
    destruct (perform_well_formed o m W) as (v & m1 & c1 & E1 & W1).
    destruct (IH m1 W1) as (vs & m2 & c2 & E2 & W2).
    rewrite E1, E2. eauto.
Qed.

(** A service is well formed when constructed, whatever pointer it is
    given, so no sequence of calls on a constructed service dereferences
    a null [database_]. *)
Lemma constructed_service_never_faults
    (db : shared_ptr) (os : list operation) (b : B) :
  exists vs m' calls,
    perform_all os {| this := DatabaseService_new db; backend := b |}
    = Returns vs m' calls /\ well_formed (this m').
Proof. apply perform_all_well_formed, well_formed_new. Qed.

End Invariant.

(** ** Properties of the service *)

Section Claims.

Context {B : Type} `{DatabaseInterface B}.

(** C1.  While [initialized_] is false, every gated operation returns
    its sentinel ([false], the empty string, [-1]), leaves the service
    and the backend as they were, and makes no call on the backend at
    all, so in particular none of [insertUser], [getUserName],
    [getUserAge], [deleteUser], [getUserCount]. *)
Theorem uninitialized_operations_return_sentinels
    (m : machine B) (name : string) (age userId : Z) :
  initialized_ (this m) = false ->
  createUser name age m = Returns false m [] /\
  getUserInfo userId m = Returns "" m [] /\
  removeUser userId m = Returns false m [] /\
  getTotalUsers m = Returns (-1) m [].
Proof.
  intros E. repeat split.
  - rewrite createUser_gated. apply gated_uninitialized, E.
  - apply getUserInfo_uninitialized, E.
  - rewrite removeUser_gated. apply gated_uninitialized, E.
  - rewrite getTotalUsers_gated. apply gated_uninitialized, E.
Qed.

(** C2, as amended.  When the service is initialized and bound, the
    backend reports connected and [getUserName(id)] returns the empty
    string, [getUserInfo(id)] returns the empty string, and it has
    called [isConnected], [getUserName(id)] and [getUserAge(id)], each
    once and in that order: the age is fetched before the name is
    examined, and its value is then discarded. *)
Theorem getUserInfo_empty_name_still_fetches_age
    (userId : Z) (m : machine B) (b1 b2 : B) :
  initialized_ (this m) = true ->
  database_ (this m) = backend_ref ->
  isConnected (backend m) = (true, b1) ->
  getUserName userId b1 = ("", b2) ->
  getUserInfo userId m
  = Returns ""
      {| this := this m; backend := snd (getUserAge userId b2) |}
      [CallIsConnected true; CallGetUserName userId "";
       CallGetUserAge userId (fst (getUserAge userId b2))].
Proof.
  intros Ei Ed Ec En.
  rewrite (getUserInfo_connected userId m b1 Ei Ed Ec), En. reflexivity.
Qed.

(** C3.  When the service is initialized (and so bound), the backend
    reports connected and [getUserName(id)] returns the empty string,
    [getUserInfo(id)] returns the empty string, whatever the backend's
    [getUserAge] is. *)
Theorem getUserInfo_empty_name_returns_empty
    (userId : Z) (m : machine B) (b1 b2 : B) :
  initialized_ (this m) = true ->
  database_ (this m) = backend_ref ->
  isConnected (backend m) = (true, b1) ->
  getUserName userId b1 = ("", b2) ->
  returned (getUserInfo userId m) = Some "".
Proof.
  intros Ei Ed Ec En.
  rewrite (getUserInfo_connected userId m b1 Ei Ed Ec), En. reflexivity.
Qed.

(** C4.  When the service is initialized (and so bound), the backend
    reports connected and returns for the id a non-empty name [N] and
    the age [A], [getUserInfo(id)] returns "Name: " + N + ", Age: " +
    the decimal numeral of [A]; for "Alice" and 25 that is exactly
    "Name: Alice, Age: 25". *)
Theorem getUserInfo_format
    (userId : Z) (m : machine B) (b1 b2 b3 : B) (N : string) (A : Z) :
  initialized_ (this m) = true ->
  database_ (this m) = backend_ref ->
  isConnected (backend m) = (true, b1) ->
  getUserName userId b1 = (N, b2) ->
  N <> "" ->
  getUserAge userId b2 = (A, b3) ->
  returned (getUserInfo userId m)
  = Some ("Name: " ++ N ++ ", Age: " ++ to_string A) /\
  option_map Z.of_int (NilZero.int_of_string (to_string A)) = Some A /\
  (N = "Alice" -> A = 25 ->
   returned (getUserInfo userId m) = Some "Name: Alice, Age: 25").
Proof.
  intros Ei Ed Ec En Hn Ea.
  assert (R : returned (getUserInfo userId m)
              = Some ("Name: " ++ N ++ ", Age: " ++ to_string A)).
  { rewrite (getUserInfo_connected userId m b1 Ei Ed Ec), En.
    cbn [fst snd]. rewrite Ea. cbn [fst snd returned].
    apply empty_false_iff in Hn. rewrite Hn. reflexivity. }
  split; [exact R|]. split; [apply to_string_decimal|].
  intros -> ->. exact R.
Qed.

(** C5.  With a null [database_], [initializeConnection] returns false
    for every connection string, makes no call on the backend, and
    leaves the service as it was, so an uninitialized service stays
    uninitialized. *)
Theorem initializeConnection_without_backend
    (connectionString : string) (m : machine B) :
  database_ (this m) = nullptr ->
  initializeConnection connectionString m = Returns false m [] /\
  (initialized_ (this m) = false ->
   exists m', initializeConnection connectionString m = Returns false m' [] /\
              initialized_ (this m') = false).
Proof.
  intros E. split.
  - apply initializeConnection_null, E.
  - intros Ei. exists m. split; [apply initializeConnection_null, E | exact Ei].
Qed.

(** C6.  With a bound backend, [initializeConnection(cs)] makes exactly
    one call, [connect(cs)], and returns what it returned.  If that is
    true, [initialized_] is true afterwards; if it is false,
    [initialized_] is what it was, so an uninitialized service stays
    uninitialized. *)
Theorem initializeConnection_with_backend
    (connectionString : string) (m : machine B) (r : bool) (b1 : B) :
  database_ (this m) = backend_ref ->
  connect connectionString (backend m) = (r, b1) ->
  exists s',
    initializeConnection connectionString m
    = Returns r {| this := s'; backend := b1 |} [CallConnect connectionString r] /\
    database_ s' = backend_ref /\
    (r = true -> initialized_ s' = true) /\
    (r = false -> initialized_ s' = initialized_ (this m)).
Proof.
  intros Ed Ec.
  exists {| database_ := backend_ref; initialized_ := r || initialized_ (this m) |}.
  split.
  - rewrite (initializeConnection_bound connectionString m Ed), Ec. reflexivity.
  - cbn [database_ initialized_]. repeat split; intros ->; reflexivity.
Qed.

(** C7.  From a state where [initialized_] is true, after any sequence
    of member function calls [initialized_] is still true (the sequence
    could only fail to return on a null [database_], which no
    initialized service has).  And a single call changes
    [initialized_] only from false to true, only in
    [initializeConnection], and only when it returns true. *)
Theorem initialized_is_never_reset :
  (forall (os : list operation) (m : machine B),
      initialized_ (this m) = true ->
      match perform_all os m with
      | Returns _ m' _ => initialized_ (this m') = true
      | NullDereference => database_ (this m) = nullptr
      end) /\
  (forall (o : operation) (m : machine B) v m' calls,
      perform o m = Returns v m' calls ->
      initialized_ (this m') <> initialized_ (this m) ->
      initialized_ (this m) = false /\ initialized_ (this m') = true /\
      is_initializeConnection o = true /\ v = VBool true).
Proof.
  split.
  - induction os as [|o os IH]; intros m Ei.
    + exact Ei.
    + rewrite perform_all_cons. pose proof (perform_step o m) as S.
      destruct (perform o m) as [v m1 c1|].
      * destruct S as [Ed S].
        assert (Ei1 : initialized_ (this m1) = true).
        { destruct S as [E | (E & _)]; congruence. }
        specialize (IH m1 Ei1).
        destruct (perform_all os m1) as [vs m2 c2|]; [exact IH | congruence].
      * apply S.
  - intros o m v m' calls E Hne. pose proof (perform_step o m) as S.
    rewrite E in S. destruct S as [_ [Same | (E0 & E1 & Eo & Ev & _)]].
    + contradiction.
    + auto.
Qed.

(** C8.  When the service is initialized (and so bound) and the backend
    reports connected, [createUser], [removeUser] and [getTotalUsers]
    call [isConnected] and then their backend counterpart with the same
    arguments, once, and return what it returned. *)
Theorem gated_operations_delegate
    (m : machine B) (b1 : B) (name : string) (age userId : Z) :
  initialized_ (this m) = true ->
  database_ (this m) = backend_ref ->
  isConnected (backend m) = (true, b1) ->
  createUser name age m
  = Returns (fst (insertUser name age b1))
      {| this := this m; backend := snd (insertUser name age b1) |}
      [CallIsConnected true;
       CallInsertUser name age (fst (insertUser name age b1))] /\
  removeUser userId m
  = Returns (fst (deleteUser userId b1))
      {| this := this m; backend := snd (deleteUser userId b1) |}
      [CallIsConnected true;
       CallDeleteUser userId (fst (deleteUser userId b1))] /\
  getTotalUsers m
  = Returns (fst (getUserCount b1))
      {| this := this m; backend := snd (getUserCount b1) |}
      [CallIsConnected true; CallGetUserCount (fst (getUserCount b1))].
Proof.
  intros Ei Ed Ec. repeat split.
  - rewrite createUser_gated. apply gated_connected; assumption.
  - rewrite removeUser_gated. apply gated_connected; assumption.
  - rewrite getTotalUsers_gated. apply gated_connected; assumption.
Qed.

End Claims.

Section Repetition.

Context {B : Type} `{DatabaseInterface B}.

(** The three ways [getUserInfo] can run on a well-formed service: the
    gate is closed by [initialized_]; it is closed by [isConnected()];
    or it is open and the name and the age are fetched.  The service
    object is the same afterwards. *)
Lemma getUserInfo_cases (userId : Z) (m : machine B) :
  well_formed (this m) ->
  exists r b' calls,
    getUserInfo userId m = Returns r {| this := this m; backend := b' |} calls /\
    (r = "" /\ calls = [] \/
     r = "" /\ calls = [CallIsConnected false] \/
     exists name age,
       r = (if empty name then ""
            else "Name: " ++ name ++ ", Age: " ++ to_string age) /\
       calls = [CallIsConnected true; CallGetUserName userId name;
                CallGetUserAge userId age]).
Proof.
  intros W. destruct (initialized_ (this m)) eqn:Ei.
  - pose proof (W Ei) as Ed.
    destruct (isConnected (backend m)) as [[|] b1] eqn:Ec.
    + rewrite (getUserInfo_connected userId m b1 Ei Ed Ec).
      do 3 eexists. split; [reflexivity|]. right; right. eauto.
    + rewrite (getUserInfo_disconnected userId m b1 Ei Ed Ec).
      do 3 eexists. split; [reflexivity|]. auto.
  - rewrite (getUserInfo_uninitialized userId m Ei).
    exists "", (backend m), []. rewrite machine_eta. auto.
Qed.

(** C9.  On a service in a reachable state, [getUserInfo(id)] called
    twice in a row returns both times.  If the backend gave the same
    answers during the second call as during the first (the same
    connection report, the same name, the same age), the two returned
    strings are equal; and so they are whenever the backend returned a
    name and an age in both calls and these were the same both times. *)
Theorem getUserInfo_idempotent (userId : Z) (m : machine B) :
  well_formed (this m) ->
  exists r1 m1 calls1 r2 m2 calls2,
    getUserInfo userId m = Returns r1 m1 calls1 /\
    getUserInfo userId m1 = Returns r2 m2 calls2 /\
    (calls1 = calls2 -> r1 = r2) /\
    (forall name age,
        In (CallGetUserName userId name) calls1 ->
        In (CallGetUserAge userId age) calls1 ->
        In (CallGetUserName userId name) calls2 ->
        In (CallGetUserAge userId age) calls2 ->
        r1 = r2).
Proof.
  intros W.
  destruct (getUserInfo_cases userId m W) as (r1 & b1 & c1 & E1 & C1).
  destruct (getUserInfo_cases userId {| this := this m; backend := b1 |} W)
    as (r2 & b2 & c2 & E2 & C2).
  exists r1, {| this := this m; backend := b1 |}, c1.
  exists r2, {| this := this m; backend := b2 |}, c2.
  split; [exact E1|]. split; [exact E2|]. split.
  - intros Ec.
    destruct C1 as [[-> ->] | [[-> ->] | (n1 & a1 & -> & ->)]];
      destruct C2 as [[-> Q] | [[-> Q] | (n2 & a2 & -> & Q)]];
      try reflexivity; try discriminate; try (rewrite Q in Ec; discriminate).
    subst c2. injection Ec as -> ->. reflexivity.
  - intros name age N1 A1 N2 A2.
    destruct C1 as [[_ ->] | [[_ ->] | (n1 & a1 & -> & ->)]];
      [destruct N1 | destruct N1 as [N1 | []]; discriminate |].
    destruct C2 as [[_ ->] | [[_ ->] | (n2 & a2 & -> & ->)]];
      [destruct N2 | destruct N2 as [N2 | []]; discriminate |].
    assert (En1 : n1 = name) by (cbn in N1; intuition congruence).
    assert (En2 : n2 = name) by (cbn in N2; intuition congruence).
    assert (Ea1 : a1 = age) by (cbn in A1; intuition congruence).
    assert (Ea2 : a2 = age) by (cbn in A2; intuition congruence).
    subst. reflexivity.
Qed.

(** C10.  On a service constructed with a null pointer, every sequence
    of member function calls returns, each call with its sentinel
    ([false] for [initializeConnection], [createUser] and [removeUser],
    the empty string for [getUserInfo], [-1] for [getTotalUsers]); the
    null pointer is never dereferenced, no call reaches any backend, and
    the service is afterwards as constructed, [initialized_] false. *)
Theorem null_backend_is_safe (os : list operation) (b : B) :
  perform_all os {| this := DatabaseService_new nullptr; backend := b |}
  = Returns (map sentinel os)
      {| this := DatabaseService_new nullptr; backend := b |} [].
Proof.
  induction os as [|o os IH]; [reflexivity|].
  rewrite perform_all_cons.
  assert (E : perform o {| this := DatabaseService_new nullptr; backend := b |}
              = Returns (sentinel o)
                  {| this := DatabaseService_new nullptr; backend := b |} []).
  { destruct o; reflexivity. }
  rewrite E, IH. reflexivity.
Qed.

End Repetition.

(** ** The properties at concrete test doubles *)

(** C1 on a fresh service bound to a mock that would accept everything. *)
Lemma uninitialized_operations_return_sentinels_witness :
  initialized_ (this (Mock.fixture Mock.alice)) = false /\
  (createUser "Alice" 25 (Mock.fixture Mock.alice)
   = Returns false (Mock.fixture Mock.alice) [] /\
   getUserInfo 1 (Mock.fixture Mock.alice)
   = Returns "" (Mock.fixture Mock.alice) [] /\
   removeUser 1 (Mock.fixture Mock.alice)
   = Returns false (Mock.fixture Mock.alice) [] /\
   getTotalUsers (Mock.fixture Mock.alice)
   = Returns (-1) (Mock.fixture Mock.alice) []).
Proof.
  split; [reflexivity|].
  apply (uninitialized_operations_return_sentinels
           (Mock.fixture Mock.alice) "Alice" 25 1).
  reflexivity.
Defined.

(** C2 as stated fails: on a connected mock that knows no user,
    [getUserName(1)] returns the empty string and [getUserInfo(1)] calls
    [getUserAge(1)] all the same. *)
Lemma getUserInfo_age_lookup_not_skipped :
  calls_made (getUserInfo 1 (Mock.ready Mock.nobody))
  = [CallIsConnected true; CallGetUserName 1 ""; CallGetUserAge 1 99] /\
  returned (getUserInfo 1 (Mock.ready Mock.nobody)) = Some "" /\
  existsb is_getUserAge (calls_made (getUserInfo 1 (Mock.ready Mock.nobody)))
  <> false.
Proof. repeat split; try reflexivity. cbv. discriminate. Qed.

Lemma getUserInfo_empty_name_still_fetches_age_witness :
  (initialized_ (this (Mock.ready Mock.nobody)) = true /\
   database_ (this (Mock.ready Mock.nobody)) = backend_ref /\
   isConnected (backend (Mock.ready Mock.nobody)) = (true, Mock.nobody) /\
   getUserName 1 Mock.nobody = ("", Mock.nobody)) /\
  getUserInfo 1 (Mock.ready Mock.nobody)
  = Returns "" (Mock.ready Mock.nobody)
      [CallIsConnected true; CallGetUserName 1 ""; CallGetUserAge 1 99].
Proof.
  split; [repeat split|].
  exact (getUserInfo_empty_name_still_fetches_age
           1 (Mock.ready Mock.nobody) Mock.nobody Mock.nobody
           eq_refl eq_refl eq_refl eq_refl).
Defined.

Lemma getUserInfo_empty_name_returns_empty_witness :
  (initialized_ (this (Mock.ready Mock.nobody)) = true /\
   database_ (this (Mock.ready Mock.nobody)) = backend_ref /\
   isConnected (backend (Mock.ready Mock.nobody)) = (true, Mock.nobody) /\
   getUserName 7 Mock.nobody = ("", Mock.nobody)) /\
  returned (getUserInfo 7 (Mock.ready Mock.nobody)) = Some "".
Proof.
  split; [repeat split|].
  exact (getUserInfo_empty_name_returns_empty
           7 (Mock.ready Mock.nobody) Mock.nobody Mock.nobody
           eq_refl eq_refl eq_refl eq_refl).
Defined.

Lemma getUserInfo_format_witness :
  (initialized_ (this (Mock.ready Mock.alice)) = true /\
   database_ (this (Mock.ready Mock.alice)) = backend_ref /\
   isConnected (backend (Mock.ready Mock.alice)) = (true, Mock.alice) /\
   getUserName 1 Mock.alice = ("Alice", Mock.alice_named) /\
   "Alice" <> "" /\
   getUserAge 1 Mock.alice_named = (25, Mock.alice_aged)) /\
  returned (getUserInfo 1 (Mock.ready Mock.alice)) = Some "Name: Alice, Age: 25".
Proof.
  assert (Hn : "Alice" <> "") by discriminate.
  split; [repeat split; exact Hn|].
  exact (proj1 (getUserInfo_format 1 (Mock.ready Mock.alice)
                  Mock.alice Mock.alice_named Mock.alice_aged "Alice" 25
                  eq_refl eq_refl eq_refl eq_refl Hn eq_refl)).
Defined.

Lemma initializeConnection_without_backend_witness :
  database_ (this (Mock.unbound Mock.alice)) = nullptr /\
  initializeConnection "test" (Mock.unbound Mock.alice)
  = Returns false (Mock.unbound Mock.alice) [].
Proof.
  split; [reflexivity|].
  exact (proj1 (initializeConnection_without_backend
                  "test" (Mock.unbound Mock.alice) eq_refl)).
Defined.

Lemma initializeConnection_with_backend_witness :
  (database_ (this (Mock.fixture Mock.alice)) = backend_ref /\
   connect "test" (backend (Mock.fixture Mock.alice)) = (true, Mock.alice_connected)) /\
  exists s',
    initializeConnection "test" (Mock.fixture Mock.alice)
    = Returns true {| this := s'; backend := Mock.alice_connected |}
        [CallConnect "test" true] /\
    database_ s' = backend_ref /\
    (true = true -> initialized_ s' = true) /\
    (true = false -> initialized_ s' = initialized_ (this (Mock.fixture Mock.alice))).
Proof.
  split; [split; reflexivity|].
  exact (initializeConnection_with_backend
           "test" (Mock.fixture Mock.alice) true Mock.alice_connected
           eq_refl eq_refl).
Defined.

Lemma initialized_is_never_reset_witness :
  (initialized_ (this (Mock.ready Mock.unreachable)) = true /\
   match perform_all
           [InitializeConnection "test"; CreateUser "Alice" 25; GetUserInfo 1;
            RemoveUser 1; GetTotalUsers]
           (Mock.ready Mock.unreachable) with
   | Returns _ m' _ => initialized_ (this m') = true
   | NullDereference => database_ (this (Mock.ready Mock.unreachable)) = nullptr
   end) /\
  (perform (InitializeConnection "test") (Mock.fixture Mock.alice)
   = Returns (VBool true) (Mock.ready Mock.alice_connected) [CallConnect "test" true] /\
   initialized_ (this (Mock.ready Mock.alice_connected))
   <> initialized_ (this (Mock.fixture Mock.alice)) /\
   (initialized_ (this (Mock.fixture Mock.alice)) = false /\
    initialized_ (this (Mock.ready Mock.alice_connected)) = true /\
    is_initializeConnection (InitializeConnection "test") = true /\
    VBool true = VBool true)).
Proof.
  assert (Hne : initialized_ (this (Mock.ready Mock.alice_connected))
                <> initialized_ (this (Mock.fixture Mock.alice)))
    by discriminate.
  assert (Hrun : perform (InitializeConnection "test") (Mock.fixture Mock.alice)
                 = Returns (VBool true) (Mock.ready Mock.alice_connected)
                     [CallConnect "test" true])
    by reflexivity.
  split; [split; [reflexivity|] | split; [exact Hrun | split; [exact Hne|]]].
  - exact (proj1 (@initialized_is_never_reset Mock.MockDatabase _)
             [InitializeConnection "test"; CreateUser "Alice" 25; GetUserInfo 1;
              RemoveUser 1; GetTotalUsers]
             (Mock.ready Mock.unreachable) eq_refl).
  - exact (proj2 (@initialized_is_never_reset Mock.MockDatabase _)
             (InitializeConnection "test") (Mock.fixture Mock.alice)
             (VBool true) (Mock.ready Mock.alice_connected) [CallConnect "test" true]
             Hrun Hne).
Defined.

Lemma gated_operations_delegate_witness :
  (initialized_ (this (Mock.ready Mock.alice)) = true /\
   database_ (this (Mock.ready Mock.alice)) = backend_ref /\
   isConnected (backend (Mock.ready Mock.alice)) = (true, Mock.alice)) /\
  (createUser "Alice" 25 (Mock.ready Mock.alice)
   = Returns true (Mock.ready Mock.alice)
       [CallIsConnected true; CallInsertUser "Alice" 25 true] /\
   removeUser 1 (Mock.ready Mock.alice)
   = Returns true (Mock.ready Mock.alice)
       [CallIsConnected true; CallDeleteUser 1 true] /\
   getTotalUsers (Mock.ready Mock.alice)
   = Returns 1 (Mock.ready Mock.alice)
       [CallIsConnected true; CallGetUserCount 1]).
Proof.
  split; [repeat split|].
  exact (gated_operations_delegate
           (Mock.ready Mock.alice) Mock.alice "Alice" 25 1
           eq_refl eq_refl eq_refl).
Defined.

Lemma getUserInfo_idempotent_witness :
  well_formed (this (Mock.ready Mock.steady)) /\
  exists r1 m1 calls1 r2 m2 calls2,
    getUserInfo 1 (Mock.ready Mock.steady) = Returns r1 m1 calls1 /\
    getUserInfo 1 m1 = Returns r2 m2 calls2 /\
    (calls1 = calls2 -> r1 = r2) /\
    (forall name age,
        In (CallGetUserName 1 name) calls1 ->
        In (CallGetUserAge 1 age) calls1 ->
        In (CallGetUserName 1 name) calls2 ->
        In (CallGetUserAge 1 age) calls2 ->
        r1 = r2).
Proof.
  assert (W : well_formed (this (Mock.ready Mock.steady))) by (intros _; reflexivity).
  split; [exact W|].
  exact (getUserInfo_idempotent 1 (Mock.ready Mock.steady) W).
Defined.

(** ** Further properties of the service *)

Section Discipline.

Context {B : Type} `{DatabaseInterface B}.

(** X1.  On an initialized service whose backend answers
    [isConnected()] with false, every gated operation returns its
    sentinel after that single call: no data method is invoked, and the
    service object is as it was. *)
Theorem disconnected_operations_return_sentinels
    (m : machine B) (b1 : B) (name : string) (age userId : Z) :
  initialized_ (this m) = true ->
  database_ (this m) = backend_ref ->
  isConnected (backend m) = (false, b1) ->
  createUser name age m
  = Returns false {| this := this m; backend := b1 |} [CallIsConnected false] /\
  getUserInfo userId m
  = Returns "" {| this := this m; backend := b1 |} [CallIsConnected false] /\
  removeUser userId m
  = Returns false {| this := this m; backend := b1 |} [CallIsConnected false] /\
  getTotalUsers m
  = Returns (-1) {| this := this m; backend := b1 |} [CallIsConnected false].
Proof.
  intros Ei Ed Ec. repeat split.
  - rewrite createUser_gated. apply gated_disconnected; assumption.
  - apply getUserInfo_disconnected; assumption.
  - rewrite removeUser_gated. apply gated_disconnected; assumption.
  - rewrite getTotalUsers_gated. apply gated_disconnected; assumption.
Qed.

(** While [initialized_] is false, any member function other than
    [initializeConnection] returns its sentinel and changes nothing. *)
Lemma perform_uninitialized (o : operation) (m : machine B) :
  initialized_ (this m) = false ->
  is_initializeConnection o = false ->
  perform o m = Returns (sentinel o) m [].
Proof.
  intros Ei Eo.
  destruct o as [cs|name age|userId|userId|]; try discriminate;
    cbn [perform sentinel]; unfold bind at 1.
  - rewrite createUser_gated, (gated_uninitialized _ _ _ m Ei). reflexivity.
  - rewrite (getUserInfo_uninitialized userId m Ei). reflexivity.
  - rewrite removeUser_gated, (gated_uninitialized _ _ _ m Ei). reflexivity.
  - rewrite getTotalUsers_gated, (gated_uninitialized _ _ _ m Ei). reflexivity.
Qed.

(** X2.  As long as [initializeConnection] is not called, a service
    whose [initialized_] is false answers every sequence of gated
    operations with their sentinels, makes no call on the backend and
    stays as it was, whether a backend is bound or not. *)
Theorem uninitialized_sequence_is_inert (os : list operation) (m : machine B) :
  initialized_ (this m) = false ->
  only_gated os = true ->
  perform_all os m = Returns (map sentinel os) m [].
Proof.
  intros Ei. induction os as [|o os IH]; intros Eg; [reflexivity|].
  cbn [only_gated forallb] in Eg. apply andb_true_iff in Eg as [Eo Eg].
  apply negb_true_iff in Eo.
  rewrite perform_all_cons, (perform_uninitialized o m Ei Eo), (IH Eg).
  reflexivity.
Qed.

(** What [initializeConnection] does to an uninitialized service. *)
Lemma initializeConnection_uninitialized cs (m : machine B) :
  initialized_ (this m) = false ->
  initializeConnection cs m = Returns false m [] \/
  (exists b1, initializeConnection cs m
              = Returns false {| this := this m; backend := b1 |}
                  [CallConnect cs false]) \/
  (exists m1, initializeConnection cs m = Returns true m1 [CallConnect cs true] /\
              well_formed (this m1)).
Proof.
  intros Ei. destruct (database_ (this m)) eqn:Ed.
  - left. apply initializeConnection_null, Ed.
  - right. rewrite (initializeConnection_bound cs m Ed). cbv zeta.
    destruct (connect cs (backend m)) as [[|] b1]; cbn [fst snd orb].
    + right. eexists. split; [reflexivity|]. intros _. reflexivity.
    + left. exists b1. rewrite Ei, <- Ei, <- Ed, service_eta. reflexivity.
Qed.

(** X3.  Starting from a service whose [initialized_] is false, every
    sequence of member function calls returns, and the backend is asked
    nothing but [connect] until a [connect] has answered true: the record
    of calls is empty or begins with failed [connect] calls followed by a
    successful one. *)
Theorem nothing_before_a_successful_connect (os : list operation) (m : machine B) :
  initialized_ (this m) = false ->
  exists vs m' calls,
    perform_all os m = Returns vs m' calls /\ connect_first calls = true.
Proof.
  revert m. induction os as [|o os IH]; intros m Ei.
  - exists [], m, []. split; reflexivity.
  - rewrite perform_all_cons.
    destruct (is_initializeConnection o) eqn:Eo.
    + destruct o as [cs| | | |]; try discriminate. cbn [perform]. unfold bind at 1.
      destruct (initializeConnection_uninitialized cs m Ei)
        as [E | [(b1 & E) | (m1 & E & W1)]]; rewrite E; unfold ret.
      * destruct (IH m Ei) as (vs & m' & calls & E' & C). rewrite E'.
        do 3 eexists. split; [reflexivity | exact C].
      * destruct (IH {| this := this m; backend := b1 |} Ei)
          as (vs & m' & calls & E' & C).
        rewrite E'. do 3 eexists. split; [reflexivity | exact C].
      * destruct (perform_all_well_formed os m1 W1) as (vs & m' & calls & E' & _).
        rewrite E'. do 3 eexists. split; reflexivity.
    + rewrite (perform_uninitialized o m Ei Eo).
      destruct (IH m Ei) as (vs & m' & calls & E' & C). rewrite E'.
      do 3 eexists. split; [reflexivity | exact C].
Qed.

(** From a well-formed service each member function returns, and the
    calls it makes form one group of a well-gated record. *)
Lemma perform_group (o : operation) (m : machine B) :
  well_formed (this m) ->
  exists v m' calls,
    perform o m = Returns v m' calls /\
    well_formed (this m') /\
    forall rest, well_gated (calls ++ rest) = well_gated rest.
Proof.
  intros W.
  destruct (perform_well_formed o m W) as (v & m' & calls & E & W').
  exists v, m', calls. split; [exact E|]. split; [exact W'|].
  revert E. clear W'. destruct m as [[db init] b].
  assert (Hdb : init = true -> db = backend_ref) by exact W. clear W.
  destruct o, db, init; try (specialize (Hdb eq_refl); discriminate);
    unfold_service;
    cbn [this backend database_ initialized_ negb is_null app];
    repeat (match goal with
            | |- context [let (_, _) := ?c in _] => destruct c as [[] ?]
            | |- context [let (_, _) := ?c in _] => destruct c as [? ?]
            | |- context [if empty ?s then _ else _] => destruct (empty s)
            end;
            cbn [this backend database_ initialized_ negb is_null app]);
    intros E; injection E as <- <- <-; intros rest;
    cbn [app well_gated]; rewrite ?Z.eqb_refl; reflexivity.
Qed.

(** X4.  From any reachable state, every sequence of member function
    calls returns, and in the record of its calls every data call
    ([insertUser], [getUserName], [getUserAge], [deleteUser],
    [getUserCount]) stands directly behind an [isConnected()] that
    answered true, [getUserAge] behind the [getUserName] of the same
    user. *)
Theorem every_data_call_is_gated (os : list operation) (m : machine B) :
  well_formed (this m) ->
  exists vs m' calls,
    perform_all os m = Returns vs m' calls /\ well_gated calls = true.
Proof.
  revert m. induction os as [|o os IH]; intros m W.
  - exists [], m, []. split; reflexivity.
  - rewrite perform_all_cons.
    destruct (perform_group o m W) as (v & m1 & c1 & E1 & W1 & G1).
    destruct (IH m1 W1) as (vs & m2 & c2 & E2 & G2).
    rewrite E1, E2. do 3 eexists. split; [reflexivity|].
    rewrite G1. exact G2.
Qed.

End Discipline.

(** ** The info string *)

Lemma chars_append (s1 s2 : string) :
  list_ascii_of_string (s1 ++ s2)
  = (list_ascii_of_string s1 ++ list_ascii_of_string s2)%list.
Proof.
  induction s1 as [|c s1 IH]; cbn [append list_ascii_of_string app];
    [reflexivity | rewrite IH; reflexivity].
Qed.

Lemma chars_injective (s1 s2 : string) :
  list_ascii_of_string s1 = list_ascii_of_string s2 -> s1 = s2.
Proof.
  intros E. rewrite <- (string_of_list_ascii_of_string s1), E.
  apply string_of_list_ascii_of_string.
Qed.

(** Two lists cut at their first space agree on both sides of it. *)
Lemma cut_at_first_space (x1 x2 t1 t2 : list ascii) :
  ~ In " "%char x1 ->
  ~ In " "%char x2 ->
  (x1 ++ " "%char :: t1 = x2 ++ " "%char :: t2)%list ->
  x1 = x2 /\ t1 = t2.
Proof.
  revert x2. induction x1 as [|c x1 IH]; intros [|c2 x2] N1 N2 E;
    cbn [app] in E.
  - injection E as ->. split; reflexivity.
  - injection E as <- _. exfalso. apply N2. left. reflexivity.
  - injection E as -> _. exfalso. apply N1. left. reflexivity.
  - injection E as -> E.
    destruct (IH x2) as [-> ->]; try assumption.
    + intros I. apply N1. right. exact I.
    + intros I. apply N2. right. exact I.
    + split; reflexivity.
Qed.

Lemma digits_no_space (d : Decimal.uint) :
  ~ In " "%char (list_ascii_of_string (NilEmpty.string_of_uint d)).
Proof.
  induction d; cbn [NilEmpty.string_of_uint list_ascii_of_string In];
    intros I; try (destruct I as [I | I]; [discriminate I | exact (IHd I)]);
    exact I.
Qed.

(** The numeral [to_string v] consists of digits and at most a minus
    sign: it contains no space. *)
Lemma to_string_no_space (v : Z) :
  ~ In " "%char (list_ascii_of_string (to_string v)).
Proof.
  assert (U : forall d, ~ In " "%char
                          (list_ascii_of_string (NilZero.string_of_uint d))).
  { intros d. destruct d; try apply digits_no_space.
    cbn. intros [I | []]. discriminate I. }
  unfold to_string. destruct (Z.to_int v) as [d|d]; cbn [NilZero.string_of_int].
  - apply U.
  - cbn [list_ascii_of_string In]. intros [I | I]; [discriminate I | exact (U d I)].
Qed.

Lemma to_string_injective (a1 a2 : Z) : to_string a1 = to_string a2 -> a1 = a2.
Proof.
  intros E. pose proof (to_string_decimal a1) as D1.
  rewrite E, to_string_decimal in D1. congruence.
Qed.

(** An info string can be read in one way only. *)
Lemma info_string_injective (n1 n2 : string) (a1 a2 : Z) :
  info_string n1 a1 = info_string n2 a2 -> n1 = n2 /\ a1 = a2.
Proof.
  unfold info_string. intros E. cbn [append] in E.
  injection E as E. apply (f_equal list_ascii_of_string) in E.
  rewrite !chars_append in E. apply (f_equal (@rev ascii)) in E.
  rewrite !rev_app_distr in E. cbn [list_ascii_of_string rev app] in E.
  rewrite <- !app_assoc in E. cbn [app] in E.
  apply cut_at_first_space in E.
  - destruct E as [Ed En]. injection En as En.
    apply (f_equal (@rev ascii)) in En, Ed. rewrite !rev_involutive in En, Ed.
    apply chars_injective in En, Ed. split; [exact En|].
    apply to_string_injective, Ed.
  - intros I. apply in_rev in I. exact (to_string_no_space a1 I).
  - intros I. apply in_rev in I. exact (to_string_no_space a2 I).
Qed.

Section Reading.

Context {B : Type} `{DatabaseInterface B}.

(** A non-empty result of [getUserInfo] comes from an open gate and a
    non-empty name. *)
Lemma getUserInfo_nonempty (userId : Z) (m m' : machine B) r calls :
  getUserInfo userId m = Returns r m' calls ->
  r <> "" ->
  exists name age,
    name <> "" /\ r = info_string name age /\
    calls = [CallIsConnected true; CallGetUserName userId name;
             CallGetUserAge userId age].
Proof.
  intros E Hr.
  assert (W : well_formed (this m)).
  { intros Ei. destruct (database_ (this m)) eqn:Ed; [|reflexivity].
    exfalso. revert E. unfold_service. rewrite Ei. cbn [negb]. rewrite Ed.
    discriminate. }
  destruct (getUserInfo_cases userId m W) as (r0 & b' & c0 & E0 & C).
  rewrite E0 in E. injection E as -> _ ->.
  destruct C as [[-> _] | [[-> _] | (name & age & -> & ->)]];
    try (exfalso; apply Hr; reflexivity).
  exists name, age. destruct (empty name) eqn:En.
  - exfalso. apply Hr. reflexivity.
  - apply empty_false_iff in En. split; [exact En|]. split; reflexivity.
Qed.

(** X5.  The info string tells name and age apart: when two calls of
    [getUserInfo] return the same non-empty string, it is "Name: " +
    name + ", Age: " + age for a single non-empty name and a single age,
    and these are what the backend answered in both calls. *)
Theorem getUserInfo_result_determines_name_and_age
    (id1 id2 : Z) (m1 m1' m2 m2' : machine B) (r : string) (c1 c2 : list call) :
  getUserInfo id1 m1 = Returns r m1' c1 ->
  getUserInfo id2 m2 = Returns r m2' c2 ->
  r <> "" ->
  exists name age,
    name <> "" /\ r = info_string name age /\
    c1 = [CallIsConnected true; CallGetUserName id1 name; CallGetUserAge id1 age] /\
    c2 = [CallIsConnected true; CallGetUserName id2 name; CallGetUserAge id2 age].
Proof.
  intros E1 E2 Hr.
  destruct (getUserInfo_nonempty id1 m1 m1' r c1 E1 Hr) as (n1 & a1 & Hn1 & R1 & C1).
  destruct (getUserInfo_nonempty id2 m2 m2' r c2 E2 Hr) as (n2 & a2 & Hn2 & R2 & C2).
  rewrite R1 in R2. apply info_string_injective in R2 as [<- <-].
  exists n1, a1. repeat split; assumption.
Qed.

End Reading.

(** ** Properties of the calculator *)

Module CalculatorFacts.

Import Calculator.

(** [BooleanAssertions], [ComparisonAssertions], [StringAssertions] and
    [ExceptionAssertions] of tests/basic_assertions_test.cpp. *)
Example test_calculator :
  isPositive 5 = true /\ isPositive (-3) = false /\
  isEven 4 = true /\ isEven 7 = false /\
  add 5 3 = Value 8 /\ subtract 10 4 = Value 6 /\ multiply 5 7 = Value 35 /\
  factorial 0 = Value 1 /\ factorial 1 = Value 1 /\ factorial 5 = Value 120 /\
  factorial (-1) = Throws "Factorial is not defined for negative numbers" /\
  concatenate "Hello" "World" = "HelloWorld" /\
  toUpperCase "hello" = "HELLO" /\ toUpperCase "" = "" /\
  getLength "hello world" = 11.
Proof. repeat split; reflexivity. Qed.

Lemma factorial_of_S (k : nat) :
  factorial_of (S k) = Z.of_nat (S k) * factorial_of k.
Proof. reflexivity. Qed.

Lemma factorial_of_fact (n : nat) : factorial_of n = Z.of_nat (fact n).
Proof.
  induction n as [|n IH]; [reflexivity|].
  rewrite factorial_of_S, IH. change (fact (S n)) with (S n * fact n)%nat.
  rewrite Nat2Z.inj_mul. reflexivity.
Qed.

Lemma factorial_of_positive (n : nat) : 1 <= factorial_of n.
Proof.
  induction n as [|n IH]; [cbn; lia|]. rewrite factorial_of_S. nia.
Qed.

Lemma factorial_of_monotone (n m : nat) :
  (n <= m)%nat -> factorial_of n <= factorial_of m.
Proof.
  induction 1 as [|m L IH]; [lia|].
  rewrite factorial_of_S. pose proof (factorial_of_positive m). nia.
Qed.

Lemma factorial_of_20 : factorial_of 20 = 2432902008176640000.
Proof. vm_compute. reflexivity. Qed.

Lemma factorial_of_step (i : Z) :
  1 <= i ->
  factorial_of (Z.to_nat (i - 1)) * i = factorial_of (Z.to_nat i).
Proof.
  intros L. replace (Z.to_nat i) with (S (Z.to_nat (i - 1))) by lia.
  rewrite factorial_of_S.
  replace (Z.of_nat (S (Z.to_nat (i - 1)))) with i by lia.
  apply Z.mul_comm.
Qed.

Lemma as_int_in_range (z : Z) :
  INT_MIN <= z <= INT_MAX -> as_int z = Value z.
Proof.
  intros R. unfold as_int, in_int.
  destruct (Z.leb_spec INT_MIN z); [|lia].
  destruct (Z.leb_spec z INT_MAX); [reflexivity|lia].
Qed.

Lemma as_int_value (z v : Z) :
  as_int z = Value v -> v = z /\ INT_MIN <= z <= INT_MAX.
Proof.
  unfold as_int, in_int.
  destruct (Z.leb_spec INT_MIN z); destruct (Z.leb_spec z INT_MAX);
    cbn [andb]; intros E; try discriminate.
  injection E as <-. lia.
Qed.

Lemma as_long_long_in_range (z : Z) :
  LLONG_MIN <= z <= LLONG_MAX -> as_long_long z = Value z.
Proof.
  intros R. unfold as_long_long, in_long_long.
  destruct (Z.leb_spec LLONG_MIN z); [|lia].
  destruct (Z.leb_spec z LLONG_MAX); [reflexivity|lia].
Qed.

Lemma factorial_loop_S (k : nat) (i result : Z) :
  factorial_loop (S k) i result
  = and_then (as_long_long (result * i)) (fun result' =>
    and_then (as_int (i + 1)) (fun i' => factorial_loop k i' result')).
Proof. reflexivity. Qed.

(** The loop invariant: entering an iteration with [i], [result] is the
    factorial of [i - 1]; and as long as [i] stays within 20 neither the
    product nor the increment overflows. *)
Lemma factorial_loop_runs (k extra : nat) (i : Z) :
  1 <= i ->
  i + Z.of_nat k <= 21 ->
  factorial_loop (k + extra) i (factorial_of (Z.to_nat (i - 1)))
  = factorial_loop extra (i + Z.of_nat k)
      (factorial_of (Z.to_nat (i + Z.of_nat k - 1))).
Proof.
  revert i. induction k as [|k IH]; intros i L U.
  - cbn [Nat.add]. rewrite Z.add_0_r. reflexivity.
  - change (S k + extra)%nat with (S (k + extra)).
    rewrite factorial_loop_S, (factorial_of_step i L).
    rewrite as_long_long_in_range.
    + cbn [and_then]. rewrite as_int_in_range by (unfold INT_MIN, INT_MAX; lia).
      cbn [and_then].
      replace (factorial_of (Z.to_nat i))
        with (factorial_of (Z.to_nat (i + 1 - 1))) by (f_equal; lia).
      rewrite IH by lia.
      replace (i + 1 + Z.of_nat k) with (i + Z.of_nat (S k)) by lia.
      reflexivity.
    + pose proof (factorial_of_positive (Z.to_nat i)).
      pose proof (factorial_of_monotone (Z.to_nat i) 20 ltac:(lia)) as M.
      rewrite factorial_of_20 in M. unfold LLONG_MIN, LLONG_MAX. lia.
Qed.

Lemma factorial_upto_20 (n : Z) :
  0 <= n <= 20 ->
  factorial n = Value (factorial_of (Z.to_nat n)).
Proof.
  intros R. unfold factorial.
  destruct (Z.ltb_spec n 0); [lia|].
  destruct (Z.eqb_spec n 0) as [->|N0]; [reflexivity|].
  destruct (Z.eqb_spec n 1) as [->|N1]; [reflexivity|].
  cbn [orb].
  pose proof (factorial_loop_runs (Z.to_nat (n + 1 - 2)) 0 2) as P.
  rewrite Nat.add_0_r in P. change (factorial_of (Z.to_nat (2 - 1))) with 1 in P.
  rewrite P by lia. cbn [factorial_loop]. do 2 f_equal. lia.
Qed.

(** X6.  For [0 <= n <= 20], [factorial(n)] returns the factorial of
    [n]: no product on the way overflows [long long]. *)
Theorem factorial_exact (n : Z) :
  0 <= n <= 20 ->
  factorial n = Value (Z.of_nat (fact (Z.to_nat n))).
Proof.
  intros R. rewrite <- factorial_of_fact. apply factorial_upto_20, R.
Qed.

(** The product that turns 20! into 21! does not fit [long long]. *)
Lemma factorial_loop_overflows (extra : nat) :
  factorial_loop (S extra) 21 (factorial_of 20) = Undefined.
Proof.
  rewrite factorial_loop_S, factorial_of_20. reflexivity.
Qed.

Lemma factorial_above_20 (n : Z) : 20 < n -> factorial n = Undefined.
Proof.
  intros R. unfold factorial.
  destruct (Z.ltb_spec n 0); [lia|].
  destruct (Z.eqb_spec n 0); [lia|]. destruct (Z.eqb_spec n 1); [lia|].
  cbn [orb].
  replace (Z.to_nat (n + 1 - 2)) with (19 + S (Z.to_nat (n - 21)))%nat by lia.
  pose proof (factorial_loop_runs 19 (S (Z.to_nat (n - 21))) 2) as P.
  change (factorial_of (Z.to_nat (2 - 1))) with 1 in P.
  rewrite P by lia.
  change (2 + Z.of_nat 19) with 21.
  change (Z.to_nat (21 - 1)) with 20%nat.
  apply factorial_loop_overflows.
Qed.

Lemma factorial_negative (n : Z) :
  n < 0 -> factorial n = Throws "Factorial is not defined for negative numbers".
Proof.
  intros R. unfold factorial. destruct (Z.ltb_spec n 0); [reflexivity|lia].
Qed.

(** X7.  [factorial(n)] throws exactly when [n] is negative, runs into
    signed overflow exactly when [n] is above 20, and returns a value
    exactly when [0 <= n <= 20]. *)
Theorem factorial_outcomes (n : Z) :
  (factorial n = Throws "Factorial is not defined for negative numbers"
   <-> n < 0) /\
  (factorial n = Undefined <-> 20 < n) /\
  ((exists v, factorial n = Value v) <-> 0 <= n <= 20).
Proof.
  assert (Cases : n < 0 \/ 0 <= n <= 20 \/ 20 < n) by lia.
  destruct Cases as [Neg | [Small | Big]].
  - rewrite (factorial_negative n Neg).
    split; [|split]; split; intros E; try lia; try discriminate E;
      try reflexivity.
    destruct E as [v E]. discriminate E.
  - rewrite (factorial_upto_20 n Small).
    split; [|split]; split; intros E; try lia; try discriminate E.
    eexists. reflexivity.
  - rewrite (factorial_above_20 n Big).
    split; [|split]; split; intros E; try lia; try discriminate E;
      try reflexivity.
    destruct E as [v E]. discriminate E.
Qed.

Lemma isEven_even (number : Z) : isEven number = Z.even number.
Proof.
  unfold isEven. apply eq_true_iff_eq.
  rewrite Z.eqb_eq, Z.even_spec, (Z.rem_divide number 2) by lia.
  split.
  - intros [k E]. exists k. lia.
  - intros [k E]. exists k. lia.
Qed.

(** X8.  [isEven] is right on negative numbers as well: although [%]
    truncates towards zero, [number % 2 == 0] holds exactly for the even
    integers, so a number and its negation get the same answer. *)
Theorem isEven_is_evenness (number : Z) :
  isEven number = Z.even number /\ isEven (- number) = isEven number.
Proof.
  rewrite !isEven_even, Z.even_opp. split; reflexivity.
Qed.

(** X9.  Parity of results: when [multiply] does not overflow, its
    result is even exactly when one of the factors is; when [add] does
    not overflow, its result is even exactly when both arguments have
    the same parity. *)
Theorem parity_of_results (a b : Z) :
  (forall p, multiply a b = Value p -> isEven p = isEven a || isEven b) /\
  (forall s, add a b = Value s -> isEven s = Bool.eqb (isEven a) (isEven b)).
Proof.
  split.
  - intros p E. apply as_int_value in E as [-> _].
    rewrite !isEven_even. apply Z.even_mul.
  - intros s E. apply as_int_value in E as [-> _].
    rewrite !isEven_even, Z.even_add.
    destruct (Z.even a), (Z.even b); reflexivity.
Qed.

(** X10.  [subtract] undoes [add]: when [add(a, b)] does not overflow,
    subtracting [b] from its result gives [a] back, without overflow. *)
Theorem subtract_undoes_add (a b s : Z) :
  in_int a = true ->
  add a b = Value s ->
  subtract s b = Value a.
Proof.
  intros Ra E. apply as_int_value in E as [-> _].
  unfold subtract. replace (a + b - b) with a by lia.
  unfold as_int. rewrite Ra. reflexivity.
Qed.

Lemma transform_length (op : ascii -> ascii) (s : string) :
  String.length (transform op s) = String.length s.
Proof.
  induction s as [|c s IH]; cbn [transform String.length]; congruence.
Qed.

Lemma transform_append (op : ascii -> ascii) (s1 s2 : string) :
  transform op (s1 ++ s2) = transform op s1 ++ transform op s2.
Proof.
  induction s1 as [|c s1 IH]; cbn [transform append]; congruence.
Qed.

(** X11.  In every locale, [toUpperCase] keeps the length of its
    argument and distributes over [concatenate]. *)
Theorem toUpperCase_length_and_concatenate
    (toupper_l : ascii -> ascii) (str1 str2 : string) :
  getLength (toUpperCase_l toupper_l str1) = getLength str1 /\
  toUpperCase_l toupper_l (concatenate str1 str2)
  = concatenate (toUpperCase_l toupper_l str1) (toUpperCase_l toupper_l str2).
Proof.
  unfold getLength, toUpperCase_l, concatenate. split.
  - rewrite transform_length. reflexivity.
  - apply transform_append.
Qed.

Lemma toupper_idempotent (c : ascii) : toupper (toupper c) = toupper c.
Proof. destruct c as [[] [] [] [] [] [] [] []]; reflexivity. Qed.

Lemma toupper_not_lower (c : ascii) : is_lower (toupper c) = false.
Proof. destruct c as [[] [] [] [] [] [] [] []]; reflexivity. Qed.

Lemma toupper_fixes_non_lower (c : ascii) : is_lower c = false -> toupper c = c.
Proof. unfold toupper, is_lower. intros ->. reflexivity. Qed.

(** X12.  In the "C" locale the result of [toUpperCase] contains no
    letter from a to z, and [toUpperCase] leaves it as it is: converting
    twice is the same as converting once. *)
Theorem toUpperCase_idempotent (str : string) :
  forallb (fun c => negb (is_lower c))
    (list_ascii_of_string (toUpperCase str)) = true /\
  toUpperCase (toUpperCase str) = toUpperCase str.
Proof.
  unfold toUpperCase, toUpperCase_l.
  induction str as [|c str [IH1 IH2]];
    cbn [transform list_ascii_of_string forallb]; [split; reflexivity|].
  rewrite toupper_not_lower, toupper_idempotent, IH1, IH2. split; reflexivity.
Qed.

Lemma static_cast_int_in_range (z : Z) :
  INT_MIN <= z <= INT_MAX -> static_cast_int z = z.
Proof.
  unfold INT_MIN, INT_MAX, static_cast_int. intros R.
  rewrite Z.mod_small by lia. lia.
Qed.

Lemma length_append (s1 s2 : string) :
  String.length (s1 ++ s2) = (String.length s1 + String.length s2)%nat.
Proof.
  induction s1 as [|c s1 IH]; cbn [append String.length Nat.add]; congruence.
Qed.

(** X13.  For strings whose lengths together fit an [int], the length
    of a concatenation is the sum of the lengths, and [add] computes it
    without overflow; and [isEmpty] holds exactly for the strings of
    length 0. *)
Theorem getLength_of_concatenate (str1 str2 : string) :
  Z.of_nat (String.length str1 + String.length str2) <= INT_MAX ->
  add (getLength str1) (getLength str2) = Value (getLength (concatenate str1 str2)) /\
  (isEmpty str1 = true <-> getLength str1 = 0).
Proof.
  intros R. unfold getLength, concatenate. rewrite length_append.
  rewrite !static_cast_int_in_range by (unfold INT_MIN, INT_MAX in *; lia).
  split.
  - unfold add. rewrite <- Nat2Z.inj_add.
    apply as_int_in_range. unfold INT_MIN, INT_MAX in *. lia.
  - unfold isEmpty. destruct str1; cbn [empty String.length]; split;
      intros E; try reflexivity; try discriminate; lia.
Qed.

End CalculatorFacts.

(** ** The further properties at concrete inputs *)

Lemma disconnected_operations_return_sentinels_witness :
  (initialized_ (this (Mock.ready Mock.unreachable)) = true /\
   database_ (this (Mock.ready Mock.unreachable)) = backend_ref /\
   isConnected (backend (Mock.ready Mock.unreachable)) = (false, Mock.unreachable)) /\
  (createUser "Alice" 25 (Mock.ready Mock.unreachable)
   = Returns false (Mock.ready Mock.unreachable) [CallIsConnected false] /\
   getUserInfo 1 (Mock.ready Mock.unreachable)
   = Returns "" (Mock.ready Mock.unreachable) [CallIsConnected false] /\
   removeUser 1 (Mock.ready Mock.unreachable)
   = Returns false (Mock.ready Mock.unreachable) [CallIsConnected false] /\
   getTotalUsers (Mock.ready Mock.unreachable)
   = Returns (-1) (Mock.ready Mock.unreachable) [CallIsConnected false]).
Proof.
  split; [repeat split|].
  exact (disconnected_operations_return_sentinels
           (Mock.ready Mock.unreachable) Mock.unreachable "Alice" 25 1
           eq_refl eq_refl eq_refl).
Defined.

Lemma uninitialized_sequence_is_inert_witness :
  (initialized_ (this (Mock.fixture Mock.alice)) = false /\
   only_gated [CreateUser "Alice" 25; GetUserInfo 1; RemoveUser 1; GetTotalUsers]
   = true) /\
  perform_all [CreateUser "Alice" 25; GetUserInfo 1; RemoveUser 1; GetTotalUsers]
    (Mock.fixture Mock.alice)
  = Returns [VBool false; VString ""; VBool false; VInt (-1)]
      (Mock.fixture Mock.alice) [].
Proof.
  split; [split; reflexivity|].
  exact (uninitialized_sequence_is_inert
           [CreateUser "Alice" 25; GetUserInfo 1; RemoveUser 1; GetTotalUsers]
           (Mock.fixture Mock.alice) eq_refl eq_refl).
Defined.

Lemma nothing_before_a_successful_connect_witness :
  initialized_ (this (Mock.fixture Mock.alice)) = false /\
  exists vs m' calls,
    perform_all [CreateUser "Bob" 30; InitializeConnection "test";
                 CreateUser "Alice" 25; GetUserInfo 1]
      (Mock.fixture Mock.alice)
    = Returns vs m' calls /\ connect_first calls = true.
Proof.
  split; [reflexivity|].
  exact (nothing_before_a_successful_connect
           [CreateUser "Bob" 30; InitializeConnection "test";
            CreateUser "Alice" 25; GetUserInfo 1]
           (Mock.fixture Mock.alice) eq_refl).
Defined.

Lemma every_data_call_is_gated_witness :
  well_formed (this (Mock.fixture Mock.alice)) /\
  exists vs m' calls,
    perform_all [InitializeConnection "test"; CreateUser "Alice" 25;
                 GetUserInfo 1; RemoveUser 1; GetTotalUsers]
      (Mock.fixture Mock.alice)
    = Returns vs m' calls /\ well_gated calls = true.
Proof.
  assert (W : well_formed (this (Mock.fixture Mock.alice)))
    by (intros E; discriminate E).
  split; [exact W|].
  exact (every_data_call_is_gated
           [InitializeConnection "test"; CreateUser "Alice" 25;
            GetUserInfo 1; RemoveUser 1; GetTotalUsers]
           (Mock.fixture Mock.alice) W).
Defined.

Lemma getUserInfo_result_determines_name_and_age_witness :
  (getUserInfo 1 (Mock.ready Mock.steady)
   = Returns "Name: Alice, Age: 25" (Mock.ready Mock.steady)
       [CallIsConnected true; CallGetUserName 1 "Alice"; CallGetUserAge 1 25] /\
   getUserInfo 2 (Mock.ready Mock.alice)
   = Returns "Name: Alice, Age: 25" (Mock.ready Mock.alice_aged)
       [CallIsConnected true; CallGetUserName 2 "Alice"; CallGetUserAge 2 25] /\
   "Name: Alice, Age: 25" <> "") /\
  exists name age,
    name <> "" /\ "Name: Alice, Age: 25" = info_string name age /\
    [CallIsConnected true; CallGetUserName 1 "Alice"; CallGetUserAge 1 25]
    = [CallIsConnected true; CallGetUserName 1 name; CallGetUserAge 1 age] /\
    [CallIsConnected true; CallGetUserName 2 "Alice"; CallGetUserAge 2 25]
    = [CallIsConnected true; CallGetUserName 2 name; CallGetUserAge 2 age].
Proof.
  assert (E1 : getUserInfo 1 (Mock.ready Mock.steady)
               = Returns "Name: Alice, Age: 25" (Mock.ready Mock.steady)
                   [CallIsConnected true; CallGetUserName 1 "Alice";
                    CallGetUserAge 1 25]) by reflexivity.
  assert (E2 : getUserInfo 2 (Mock.ready Mock.alice)
               = Returns "Name: Alice, Age: 25" (Mock.ready Mock.alice_aged)
                   [CallIsConnected true; CallGetUserName 2 "Alice";
                    CallGetUserAge 2 25]) by reflexivity.
  assert (Hr : "Name: Alice, Age: 25" <> "") by discriminate.
  split; [split; [exact E1 | split; [exact E2 | exact Hr]]|].
  exact (getUserInfo_result_determines_name_and_age
           1 2 (Mock.ready Mock.steady) (Mock.ready Mock.steady)
           (Mock.ready Mock.alice) (Mock.ready Mock.alice_aged)
           "Name: Alice, Age: 25" _ _ E1 E2 Hr).
Defined.

Lemma factorial_exact_witness :
  0 <= 10 <= 20 /\
  Calculator.factorial 10 = Calculator.Value (Z.of_nat (fact (Z.to_nat 10))).
Proof.
  assert (R : 0 <= 10 <= 20) by lia.
  split; [exact R|]. exact (CalculatorFacts.factorial_exact 10 R).
Defined.

Lemma parity_of_results_witness :
  (Calculator.multiply 2 3 = Calculator.Value 6 /\
   Calculator.isEven 6 = Calculator.isEven 2 || Calculator.isEven 3) /\
  (Calculator.add (-3) 5 = Calculator.Value 2 /\
   Calculator.isEven 2
   = Bool.eqb (Calculator.isEven (-3)) (Calculator.isEven 5)).
Proof.
  split; (split; [reflexivity|]).
  - exact (proj1 (CalculatorFacts.parity_of_results 2 3) 6 eq_refl).
  - exact (proj2 (CalculatorFacts.parity_of_results (-3) 5) 2 eq_refl).
Defined.

Lemma subtract_undoes_add_witness :
  (Calculator.in_int 2147483000 = true /\
   Calculator.add 2147483000 647 = Calculator.Value 2147483647) /\
  Calculator.subtract 2147483647 647 = Calculator.Value 2147483000.
Proof.
  split; [split; reflexivity|].
  exact (CalculatorFacts.subtract_undoes_add 2147483000 647 2147483647
           eq_refl eq_refl).
Defined.

Lemma getLength_of_concatenate_witness :
  Z.of_nat (String.length "Hello" + String.length "World") <= Calculator.INT_MAX /\
  (Calculator.add (Calculator.getLength "Hello") (Calculator.getLength "World")
   = Calculator.Value (Calculator.getLength (Calculator.concatenate "Hello" "World")) /\
   (Calculator.isEmpty "Hello" = true <-> Calculator.getLength "Hello" = 0)).
Proof.
  assert (R : Z.of_nat (String.length "Hello" + String.length "World")
              <= Calculator.INT_MAX) by (intros E; discriminate E).
  split; [exact R|].
  exact (CalculatorFacts.getLength_of_concatenate "Hello" "World" R).
Defined.
